(** * Contacts backend: users, tokens and owner-scoped contacts

    A shallow embedding of [app/models.py], [app/schemas.py] and the request
    handlers of [app/main.py].  Tables are lists of rows in insertion order
    (the order [.first()] and [.all()] observe), a handler is a function from
    the store to a response and the store it leaves behind, and an exception
    that no handler catches is a response of its own. *)

From Stdlib Require Import ZArith List String Bool Lia.
Import ListNotations.

Open Scope string_scope.
Open Scope Z_scope.

(** ** Python values *)

(** [datetime.date], the type of [birthday]. *)
Record date := mkdate { year : Z; month : Z; day : Z }.

(** The dynamically typed values that reach [Session.get] as a key and
    [setattr] as an attribute value. *)
Inductive PyVal :=
| PyNone
| PyInt (z : Z)
| PyStr (s : string)
| PyDate (d : date).

(** Python truthiness: [None], [0] and the empty string are falsy, a [date]
    object is always truthy. *)
Definition truthy (v : PyVal) : bool :=
  match v with
  | PyNone => false
  | PyInt z => negb (z =? 0)
  | PyStr s => negb (s =? "")%string
  | PyDate _ => true
  end.

(** Exceptions that escape a handler (the framework answers 500).
    [DBAPIError] is what the driver raises for a bind parameter that does not
    fit an [Integer] column, [DetachedInstanceError] what reading an expired
    attribute of a row raises once its session is closed. *)
Inductive PyExn :=
| AttributeError
| NameError
| IntegrityError
| DBAPIError
| DetachedInstanceError.

(** ** app/models.py *)

Module User.
(** Table [users]: [id] is the primary key, [email] is unique. *)
Record t := mk {
  id : Z;
  email : string;
  hashed_password : string;
  is_active : bool
}.
End User.

Module Contact.
(** Table [contacts]: [id] is the primary key, [user_id] references
    [users.id], [email] is unique, [additional_info] is nullable. *)
Record t := mk {
  id : Z;
  user_id : Z;
  first_name : string;
  last_name : string;
  email : string;
  phone_number : string;
  birthday : date;
  additional_info : option string
}.
End Contact.

(** ** app/schemas.py *)

Module UserCreate.
Record t := mk { email : string; password : string }.
End UserCreate.

Module ContactCreate.
(** [ContactBase]: five required fields and the optional [additional_info]
    (default [None]). *)
Record t := mk {
  first_name : string;
  last_name : string;
  email : string;
  phone_number : string;
  birthday : date;
  additional_info : option string
}.
End ContactCreate.

Module ContactBody.
(** A JSON request body before validation: any declared field may be
    missing, and a client may add a field the schema does not declare, such
    as an owner. *)
Record t := mk {
  first_name : option string;
  last_name : option string;
  email : option string;
  phone_number : option string;
  birthday : option date;
  additional_info : option string;
  user_id : option Z
}.
End ContactBody.

(** Validation of a body against [ContactCreate]: every field declared
    without a default must be present; undeclared fields are dropped. [None]
    stands for the 422 answer given before the handler runs. The format
    checks of [EmailStr] and [date] are not part of it, so the bodies that
    pass here include every body that passes the schema. *)
Definition parse_ContactCreate (b : ContactBody.t) : option ContactCreate.t :=
  match ContactBody.first_name b, ContactBody.last_name b, ContactBody.email b,
        ContactBody.phone_number b, ContactBody.birthday b with
  | Some fn, Some ln, Some em, Some ph, Some bd =>
      Some (ContactCreate.mk fn ln em ph bd (ContactBody.additional_info b))
  | _, _, _, _, _ => None
  end.

(** [Token] response model together with the [refresh_token] key that
    [login_for_access_token] returns. *)
Record TokenPair := mkTokenPair {
  access_token : string;
  token_type : string;
  refresh_token : string
}.

(** ** The store behind [AsyncSession] *)

(** The tables of [postgresql+asyncpg://.../mydatabase] with the next value
    of the two id sequences. *)
Record Db := mkDb {
  users : list User.t;
  contacts : list Contact.t;
  users_id_seq : Z;
  contacts_id_seq : Z
}.

Definition empty_db : Db := mkDb [] [] 1 1.

(** The values the driver accepts for a parameter compared with an
    [Integer] column. *)
Definition in_int32 (z : Z) : bool :=
  (-2147483648 <=? z) && (z <=? 2147483647).

(** [db.get(User, key)]: the key is bound to the [Integer] primary key [id].
    A string, or an integer outside 32 bits, is refused by the driver and the
    call raises; [None] loads nothing; an integer in range loads the row with
    that id, or nothing. *)
Definition db_get_User (db : Db) (key : PyVal) : PyExn + option User.t :=
  match key with
  | PyNone => inr None
  | PyInt z =>
      if in_int32 z
      then inr (find (fun u => User.id u =? z) (users db))
      else inl DBAPIError
  | PyStr _ => inl DBAPIError
  | PyDate _ => inl DBAPIError
  end.

(** [select(User).filter(User.email == email)] followed by
    [.scalars().first()]. *)
Definition select_User_by_email (db : Db) (email : string) : option User.t :=
  find (fun u => (User.email u =? email)%string) (users db).

(** [db.add(User(email=..., hashed_password=..., is_active=...))] followed by
    [db.commit()]: the row takes the next value of the sequence, and the
    unique index on [users.email] rejects a second row with the same email.
    The sequence value is used up either way. *)
Definition insert_User (db : Db) (email hashed : string) (active : bool)
  : (PyExn * Db) + (User.t * Db) :=
  if existsb (fun u => (User.email u =? email)%string) (users db)
  then inl (IntegrityError,
            mkDb (users db) (contacts db)
                 (users_id_seq db + 1) (contacts_id_seq db))
  else
    let u := User.mk (users_id_seq db) email hashed active in
    inr (u, mkDb (users db ++ [u]) (contacts db)
                 (users_id_seq db + 1) (contacts_id_seq db)).

(** [user.is_active = True; db.add(user); db.commit()] on a loaded row. *)
Definition activate_User (db : Db) (u : User.t) : Db :=
  mkDb (map (fun r => if User.id r =? User.id u
                      then User.mk (User.id r) (User.email r)
                                   (User.hashed_password r) true
                      else r) (users db))
       (contacts db) (users_id_seq db) (contacts_id_seq db).

(** [select(Contact).filter(Contact.id == contact_id,
    Contact.user_id == user_id)] followed by [.scalars().first()].
    [contact_id] is the path parameter, any Python [int]: outside 32 bits the
    driver refuses it and the query raises. [user_id] is read off a loaded
    row. Both columns are compared, so at most the rows of that user with
    that id qualify. *)
Definition select_Contact (db : Db) (contact_id user_id : Z)
  : PyExn + option Contact.t :=
  if in_int32 contact_id
  then inr (find (fun c => (Contact.id c =? contact_id)
                           && (Contact.user_id c =? user_id))
                 (contacts db))
  else inl DBAPIError.

(** [select(Contact).filter(Contact.user_id == user_id)] followed by
    [.scalars().all()]. The query has no [ORDER BY]: the list stands for the
    rows returned, and nothing below depends on their order. *)
Definition select_Contacts_of (db : Db) (user_id : Z) : list Contact.t :=
  filter (fun c => Contact.user_id c =? user_id) (contacts db).

(** [db.add] of a new [Contact] owned by [owner], followed by [db.commit()]: the
    foreign key needs a [users] row with that id, the unique index on
    [contacts.email] rejects a duplicate. The sequence value is used up
    either way. *)
Definition insert_Contact (db : Db) (f : ContactCreate.t) (owner : Z)
  : (PyExn * Db) + (Contact.t * Db) :=
  if negb (existsb (fun u => User.id u =? owner) (users db))
     || existsb (fun c => (Contact.email c =? ContactCreate.email f)%string)
                (contacts db)
  then inl (IntegrityError,
            mkDb (users db) (contacts db)
                 (users_id_seq db) (contacts_id_seq db + 1))
  else
    let c := Contact.mk (contacts_id_seq db) owner
               (ContactCreate.first_name f) (ContactCreate.last_name f)
               (ContactCreate.email f) (ContactCreate.phone_number f)
               (ContactCreate.birthday f) (ContactCreate.additional_info f) in
    inr (c, mkDb (users db) (contacts db ++ [c])
                 (users_id_seq db) (contacts_id_seq db + 1)).

(** [db.delete(contact)] followed by [db.commit()]: the row with that primary
    key leaves the table. *)
Definition delete_Contact (db : Db) (c : Contact.t) : Db :=
  mkDb (users db)
       (filter (fun r => negb (Contact.id r =? Contact.id c)) (contacts db))
       (users_id_seq db) (contacts_id_seq db).

(** Stores as the handlers build them: primary keys are unique and below the
    next value of their sequence. *)
Definition wf_db (db : Db) : Prop :=
  NoDup (map User.id (users db))
  /\ NoDup (map Contact.id (contacts db))
  /\ (forall u, In u (users db) -> User.id u < users_id_seq db)
  /\ (forall c, In c (contacts db) -> Contact.id c < contacts_id_seq db).

(** ** Responses *)

(** What a request comes back with: a body under a success status, an
    [HTTPException] raised by the handler, or an exception nobody caught. *)
Inductive Response (A : Type) :=
| Ok (status_code : Z) (body : A)
| HTTPException (status_code : Z) (detail : string)
| Unhandled (e : PyExn).

Arguments Ok {A} status_code body.
Arguments HTTPException {A} status_code detail.
Arguments Unhandled {A} e.

(** The status line the client reads. *)
Definition status_of {A} (r : Response A) : Z :=
  match r with
  | Ok s _ => s
  | HTTPException s _ => s
  | Unhandled _ => 500
  end.

(** ** Partial update: the [setattr] loop of [update_contact] *)

(** [vars(contact).items()] for a [ContactCreate], in declaration order. *)
Definition vars_ContactCreate (c : ContactCreate.t) : list (string * PyVal) :=
  [ ("first_name", PyStr (ContactCreate.first_name c));
    ("last_name", PyStr (ContactCreate.last_name c));
    ("email", PyStr (ContactCreate.email c));
    ("phone_number", PyStr (ContactCreate.phone_number c));
    ("birthday", PyDate (ContactCreate.birthday c));
    ("additional_info",
       match ContactCreate.additional_info c with
       | Some s => PyStr s
       | None => PyNone
       end) ].

(** [setattr(existing_contact, var, value)] on the mapped columns. *)
Definition setattr_Contact (c : Contact.t) (var : string) (value : PyVal)
  : Contact.t :=
  let '(Contact.mk i o fn ln em ph bd ai) := c in
  match value with
  | PyStr s =>
      if (var =? "first_name")%string then Contact.mk i o s ln em ph bd ai
      else if (var =? "last_name")%string then Contact.mk i o fn s em ph bd ai
      else if (var =? "email")%string then Contact.mk i o fn ln s ph bd ai
      else if (var =? "phone_number")%string then Contact.mk i o fn ln em s bd ai
      else if (var =? "additional_info")%string
           then Contact.mk i o fn ln em ph bd (Some s)
      else c
  | PyDate d =>
      if (var =? "birthday")%string then Contact.mk i o fn ln em ph d ai else c
  | PyNone =>
      if (var =? "additional_info")%string
      then Contact.mk i o fn ln em ph bd None else c
  | PyInt z =>
      if (var =? "id")%string then Contact.mk z o fn ln em ph bd ai
      else if (var =? "user_id")%string then Contact.mk i z fn ln em ph bd ai
      else c
  end.

(** [for var, value in vars(contact).items():
       setattr(existing_contact, var, value) if value else None] *)
Definition merge_into (existing_contact : Contact.t) (contact : ContactCreate.t)
  : Contact.t :=
  fold_left
    (fun acc '(var, value) =>
       if truthy value then setattr_Contact acc var value else acc)
    (vars_ContactCreate contact) existing_contact.

(** ** app/main.py *)

Section Handlers.

(** The names imported from [app/auth.py] at line 9; that file is not given,
    and the handlers are read for every implementation of them. A decoder
    returns the subject, or [None] for a token it rejects. *)
Variable get_password_hash : string -> string.
Variable verify_password : string -> string -> bool.
Variable create_access_token : string -> string.
Variable create_refresh_token : string -> string.
Variable decode_access_token : string -> option string.

(** The decoders bound in the module's namespace, by name: line 9 imports
    [decode_access_token] and no other. *)
Definition module_decoder (name : string) : option (string -> option string) :=
  if (name =? "decode_access_token")%string
  then Some decode_access_token
  else None.

(** The decoded subject as the key handed to [db.get]. *)
Definition key_of_subject (email : option string) : PyVal :=
  match email with
  | Some s => PyStr s
  | None => PyNone
  end.

(** [POST /register/] *)
Definition register (db : Db) (user : UserCreate.t)
  : Response User.t * Db :=
  match db_get_User db (PyStr (UserCreate.email user)) with
  | inl e => (Unhandled e, db)
  | inr (Some _) => (HTTPException 409 "Email already registered", db)
  | inr None =>
      let hashed_password := get_password_hash (UserCreate.password user) in
      match insert_User db (UserCreate.email user) hashed_password false with
      | inl (e, db') => (Unhandled e, db')
      | inr (new_user, db') => (Ok 201 new_user, db')
      end
  end.

(** [POST /users/]. Unlike [register] the handler returns the row without
    [db.refresh]: the commit has expired its attributes and leaving
    [async with db] has closed the session, so reading the response off the
    row fails. *)
Definition create_user (db : Db) (user : UserCreate.t)
  : Response User.t * Db :=
  match select_User_by_email db (UserCreate.email user) with
  | Some _ => (HTTPException 409 "Email already registered", db)
  | None =>
      let hashed_password := get_password_hash (UserCreate.password user) in
      match insert_User db (UserCreate.email user) hashed_password true with
      | inl (e, db') => (Unhandled e, db')
      | inr (_, db') => (Unhandled DetachedInstanceError, db')
      end
  end.

(** [POST /token] *)
Definition login_for_access_token (db : Db) (username password : string)
  : Response TokenPair :=
  match db_get_User db (PyStr username) with
  | inl e => Unhandled e
  | inr None => HTTPException 401 "Incorrect email or password"
  | inr (Some user) =>
      if negb (verify_password password (User.hashed_password user))
      then HTTPException 401 "Incorrect email or password"
      else Ok 200 (mkTokenPair (create_access_token (User.email user))
                               "bearer"
                               (create_refresh_token (User.email user)))
  end.

(** [GET /users/me/] *)
Definition read_users_me (db : Db) (token : string) : Response User.t :=
  let email := decode_access_token token in
  if negb (truthy (key_of_subject email))
  then HTTPException 401 "Could not validate credentials"
  else
    match db_get_User db (key_of_subject email) with
    | inl e => Unhandled e
    | inr None => HTTPException 404 "User not found"
    | inr (Some user) => Ok 200 user
    end.

(** The first two statements of every contact handler:
    [email = decode_access_token(token)] and [user = await db.get(User, email)]. *)
Definition caller_of (db : Db) (token : string) : PyExn + option User.t :=
  db_get_User db (key_of_subject (decode_access_token token)).

(** [POST /contacts/] once [user] is bound. *)
Definition create_contact_for (user : User.t) (db : Db)
    (contact : ContactCreate.t) : Response Contact.t * Db :=
  match insert_Contact db contact (User.id user) with
  | inl (e, db') => (Unhandled e, db')
  | inr (new_contact, db') => (Ok 201 new_contact, db')
  end.

(** [GET /contacts/] once [user] is bound. *)
Definition read_contacts_for (user : User.t) (db : Db)
  : Response (list Contact.t) :=
  Ok 200 (select_Contacts_of db (User.id user)).

(** [GET /contacts/{contact_id}] once [user] is bound. *)
Definition read_contact_for (user : User.t) (db : Db) (contact_id : Z)
  : Response Contact.t :=
  match select_Contact db contact_id (User.id user) with
  | inl e => Unhandled e
  | inr None => HTTPException 404 "Contact not found"
  | inr (Some contact) => Ok 200 contact
  end.

(** [PUT /contacts/{contact_id}] once [user] is bound. The handler calls
    [db.commit()] without awaiting it, so nothing is flushed before the
    session closes: the merged object is the response, the tables stay. *)
Definition update_contact_for (user : User.t) (db : Db) (contact_id : Z)
    (contact : ContactCreate.t) : Response Contact.t * Db :=
  match select_Contact db contact_id (User.id user) with
  | inl e => (Unhandled e, db)
  | inr None => (HTTPException 404 "Contact not found", db)
  | inr (Some existing_contact) =>
      (Ok 200 (merge_into existing_contact contact), db)
  end.

(** [DELETE /contacts/{contact_id}] once [user] is bound. *)
Definition delete_contact_for (user : User.t) (db : Db) (contact_id : Z)
  : Response unit * Db :=
  match select_Contact db contact_id (User.id user) with
  | inl e => (Unhandled e, db)
  | inr None => (HTTPException 404 "Contact not found", db)
  | inr (Some contact) => (Ok 204 tt, delete_Contact db contact)
  end.

(** The handlers as routed: [db.get] may raise; when it loads nothing,
    [user] is [None] and [user.id] raises [AttributeError]. *)
Definition create_contact (db : Db) (contact : ContactCreate.t)
    (token : string) : Response Contact.t * Db :=
  match caller_of db token with
  | inl e => (Unhandled e, db)
  | inr None => (Unhandled AttributeError, db)
  | inr (Some user) => create_contact_for user db contact
  end.

Definition read_contacts (db : Db) (token : string)
  : Response (list Contact.t) :=
  match caller_of db token with
  | inl e => Unhandled e
  | inr None => Unhandled AttributeError
  | inr (Some user) => read_contacts_for user db
  end.

Definition read_contact (db : Db) (contact_id : Z) (token : string)
  : Response Contact.t :=
  match caller_of db token with
  | inl e => Unhandled e
  | inr None => Unhandled AttributeError
  | inr (Some user) => read_contact_for user db contact_id
  end.

Definition update_contact (db : Db) (contact_id : Z)
    (contact : ContactCreate.t) (token : string) : Response Contact.t * Db :=
  match caller_of db token with
  | inl e => (Unhandled e, db)
  | inr None => (Unhandled AttributeError, db)
  | inr (Some user) => update_contact_for user db contact_id contact
  end.

Definition delete_contact (db : Db) (contact_id : Z) (token : string)
  : Response unit * Db :=
  match caller_of db token with
  | inl e => (Unhandled e, db)
  | inr None => (Unhandled AttributeError, db)
  | inr (Some user) => delete_contact_for user db contact_id
  end.

(** Lines 316-324 of [verify_email] for a decoder [decode_token]. *)
Definition verify_email_with (decode_token : string -> option string)
    (db : Db) (token : string) : Response string * Db :=
  let email := decode_token token in
  match db_get_User db (key_of_subject email) with
  | inl e => (Unhandled e, db)
  | inr None => (HTTPException 404 "User not found", db)
  | inr (Some user) => (Ok 200 "Email verified", activate_User db user)
  end.

(** [GET /verify/{token}]: the handler calls [decode_token], a name the
    module neither defines nor imports, so the call raises [NameError]. *)
Definition verify_email (db : Db) (token : string) : Response string * Db :=
  match module_decoder "decode_token" with
  | None => (Unhandled NameError, db)
  | Some decode_token => verify_email_with decode_token db token
  end.

End Handlers.

(** ** Token Service of [app/auth.py] *)

Inductive TokenKind := Access | Refresh.

(** The payload a token carries: subject, expiry and kind. *)
Record Claims := mkClaims { sub : string; exp : Z; kind : TokenKind }.

(** A presented token either fails to parse or carries claims and a
    signature. *)
Inductive Token :=
| Malformed (raw : string)
| Signed (claims : Claims) (signature : string).

Inductive Decoded :=
| Subject (subject : string)
| Invalid.

Section TokenService.

(** The process-wide secret, the signing primitive and the time to live of
    each kind are configuration. *)
Variable SECRET_KEY : string.
Variable sign : string -> Claims -> string.
Variable TTL : TokenKind -> Z.

(** Modelled from the spec: [app/auth.py] (create_access_token and
    create_refresh_token) is not among the sources. The spec has
    [issue(subject, kind, now)] produce a signed token embedding the subject
    and an expiry equal to [now + TTL(kind)]. *)
Definition issue (subject : string) (k : TokenKind) (now : Z) : Token :=
  let claims := mkClaims subject (now + TTL k) k in
  Signed claims (sign SECRET_KEY claims).

(** Modelled from the spec: [app/auth.py] (decode_access_token) is not among
    the sources. The spec has [decode(token, now)] verify the signature and
    that [now < expiry], return the embedded subject on success, and return
    [Invalid] for a malformed token, a bad signature or an expired token. *)
Definition decode (token : Token) (now : Z) : Decoded :=
  match token with
  | Malformed _ => Invalid
  | Signed claims signature =>
      if (signature =? sign SECRET_KEY claims)%string && (now <? exp claims)
      then Subject (sub claims)
      else Invalid
  end.

End TokenService.

(** The two unique indexes on [email], as a property of the tables. *)
Definition emails_unique (db : Db) : Prop :=
  NoDup (map User.email (users db))
  /\ NoDup (map Contact.email (contacts db)).

(** ** Sample data *)

Module Sample.

Definition alice : User.t := User.mk 1 "alice@example.com" "h:secret" false.
Definition bob : User.t := User.mk 2 "bob@example.com" "h:hunter2" true.

Definition jane : Contact.t :=
  Contact.mk 1 1 "Jane" "Doe" "jane@x.com" "555-0100"
             (mkdate 1990 1 1) None.
Definition carl : Contact.t :=
  Contact.mk 2 2 "Carl" "Roe" "carl@x.com" "555-0199"
             (mkdate 1985 6 30) (Some "met at work").

Definition db : Db := mkDb [alice; bob] [jane; carl] 3 3.

(** A hasher and its check that agree with each other. *)
Definition hash (password : string) : string := "h:" ++ password.
Definition check (password hashed : string) : bool :=
  (hashed =? hash password)%string.

(** A decoder that knows three bearer tokens. *)
Definition decoder (token : string) : option string :=
  if (token =? "alice-token")%string then Some "alice@example.com"
  else if (token =? "bob-token")%string then Some "bob@example.com"
  else if (token =? "ghost-token")%string then Some "ghost@example.com"
  else None.

Definition mint (subject : string) : string := "jwt:" ++ subject.

Definition new_user : UserCreate.t :=
  UserCreate.mk "user@example.com" "password".

(** A body that also names bob as the owner. *)
Definition body : ContactBody.t :=
  ContactBody.mk (Some "Ann") (Some "Lee") (Some "ann@x.com")
                 (Some "555-0142") (Some (mkdate 2001 2 3)) None (Some 2).

(** A request that renames jane and leaves blank what it may leave blank. *)
Definition rename_only : ContactCreate.t :=
  ContactCreate.mk "New" "" "jane@x.com" "" (mkdate 1990 1 1) None.

Definition blank_first_name : ContactCreate.t :=
  ContactCreate.mk "" "Dee" "jd@x.com" "555-0111" (mkdate 1991 2 2)
                   (Some "renamed").

(** A toy signature and times to live of half an hour and a week, in
    seconds. *)
Definition sign (key : string) (c : Claims) : string := key ++ ":" ++ sub c.
Definition TTL (k : TokenKind) : Z :=
  match k with
  | Access => 1800
  | Refresh => 604800
  end.

End Sample.

(** * Properties *)

(** ** Lookups *)

Lemma find_none_of_false {A} (p : A -> bool) (l : list A) :
  (forall x, In x l -> p x = false) -> find p l = None.
Proof.
  induction l as [|a l IH]; intros H; simpl; [reflexivity|].
  rewrite (H a (or_introl eq_refl)).
  apply IH. intros x Hx. apply H. now right.
Qed.

Lemma find_app_none {A} (p : A -> bool) (l l' : list A) :
  find p l = None -> find p (l ++ l') = find p l'.
Proof.
  induction l as [|a l IH]; simpl; [reflexivity|].
  destruct (p a); [discriminate|exact IH].
Qed.

(** Rows of a table whose key column has no duplicates are told apart by
    their key. *)
Lemma key_identifies_row {A} (key : A -> Z) (l : list A) (x y : A) :
  NoDup (map key l) -> In x l -> In y l -> key x = key y -> x = y.
Proof.
  induction l as [|a l IH]; simpl; [easy|].
  intros Hnd Hx Hy E. inversion Hnd as [|? ? Hni Hnd']; subst.
  destruct Hx as [->|Hx], Hy as [->|Hy]; auto.
  - exfalso. apply Hni. rewrite E. now apply in_map.
  - exfalso. apply Hni. rewrite <- E. now apply in_map.
Qed.

(** With unique keys, the first row a predicate on the key selects is the
    row that has the key. *)
Lemma find_row_by_key {A} (key : A -> Z) (p : A -> bool) (l : list A) (x : A) :
  NoDup (map key l) -> In x l -> p x = true ->
  (forall y, p y = true -> key y = key x) ->
  find p l = Some x.
Proof.
  intros Hnd Hin Hp Hkey.
  destruct (find p l) as [y|] eqn:E.
  - apply find_some in E as [Hy Hpy].
    f_equal. apply (key_identifies_row key l y x Hnd Hy Hin). now apply Hkey.
  - apply (find_none _ _ E) in Hin. congruence.
Qed.

Lemma db_get_User_str (db : Db) (s : string) :
  db_get_User db (PyStr s) = inl DBAPIError.
Proof. reflexivity. Qed.

Lemma db_get_User_none (db : Db) : db_get_User db PyNone = inr None.
Proof. reflexivity. Qed.

(** A [get] keyed by a 32-bit integer does find the row with that id. *)
Lemma db_get_User_int (db : Db) (u : User.t) :
  NoDup (map User.id (users db)) -> In u (users db) ->
  in_int32 (User.id u) = true ->
  db_get_User db (PyInt (User.id u)) = inr (Some u).
Proof.
  intros Hnd Hin Hr. unfold db_get_User. rewrite Hr. f_equal.
  apply (find_row_by_key User.id); auto.
  - apply Z.eqb_refl.
  - intros y Hy. now apply Z.eqb_eq in Hy.
Qed.

(** C8. Every [db.get(User, email)] of [register], [login_for_access_token]
    and [read_users_me] binds the email string to the integer primary key
    [id], not to the [email] column. For a stored row the lookup keyed by
    that row's own email therefore does not return the row (the driver
    refuses the string and the call raises), whereas the lookup keyed by the
    row's id does return it; at the three call sites the handler ends there,
    with the store as it was. *)
Theorem get_by_email_misses_stored_user :
  forall get_password_hash verify_password create_access_token
         create_refresh_token decode_access_token
         (db : Db) (u : User.t) (password token : string),
    In u (users db) ->
    db_get_User db (PyStr (User.email u)) <> inr (Some u)
    /\ db_get_User db (PyStr (User.email u)) = inl DBAPIError
    /\ (NoDup (map User.id (users db)) -> in_int32 (User.id u) = true ->
        db_get_User db (PyInt (User.id u)) = inr (Some u))
    /\ register get_password_hash db (UserCreate.mk (User.email u) password)
       = (Unhandled DBAPIError, db)
    /\ login_for_access_token verify_password create_access_token
         create_refresh_token db (User.email u) password
       = Unhandled DBAPIError
    /\ (decode_access_token token = Some (User.email u) ->
        User.email u <> "" ->
        read_users_me decode_access_token db token = Unhandled DBAPIError).
Proof.
  intros hash verify cat crt dec db u password token Hin.
  split; [discriminate|]. split; [reflexivity|]. split.
  { intros Hnd Hr. now apply db_get_User_int. }
  split; [reflexivity|]. split; [reflexivity|].
  intros Hdec Hne. unfold read_users_me. rewrite Hdec. simpl.
  destruct (String.eqb_spec (User.email u) "") as [E|_]; [easy|reflexivity].
Qed.

Lemma get_by_email_misses_stored_user_witness :
  db_get_User Sample.db (PyStr "alice@example.com") = inl DBAPIError
  /\ db_get_User Sample.db (PyInt 1) = inr (Some Sample.alice)
  /\ register Sample.hash Sample.db (UserCreate.mk "alice@example.com" "secret")
     = (Unhandled DBAPIError, Sample.db)
  /\ login_for_access_token Sample.check Sample.mint Sample.mint Sample.db
       "alice@example.com" "secret"
     = Unhandled DBAPIError
  /\ read_users_me Sample.decoder Sample.db "alice-token"
     = Unhandled DBAPIError.
Proof.
  destruct (get_by_email_misses_stored_user Sample.hash Sample.check
              Sample.mint Sample.mint Sample.decoder Sample.db Sample.alice
              "secret" "alice-token" (or_introl eq_refl))
    as (_ & H1 & H2 & H3 & H4 & H5).
  split; [exact H1|]. split.
  { apply H2; [|reflexivity].
    simpl. repeat constructor; simpl; intuition discriminate. }
  split; [exact H3|]. split; [exact H4|].
  apply H5; [reflexivity | discriminate].
Defined.

(** ** Contact access control *)

Lemma select_Contact_sound (db : Db) (contact_id user_id : Z) (c : Contact.t) :
  select_Contact db contact_id user_id = inr (Some c) ->
  In c (contacts db) /\ Contact.id c = contact_id /\ Contact.user_id c = user_id.
Proof.
  unfold select_Contact. destruct (in_int32 contact_id); [|discriminate].
  intros H. injection H as H. apply find_some in H as [Hin Hp].
  apply andb_true_iff in Hp as [H1 H2].
  apply Z.eqb_eq in H1, H2. auto.
Qed.








(** X12. As routed, the contact handlers hand the decoded subject to [db.get]
    as the key and none of them binds a user: for a token with a subject the
    lookup raises [DBAPIError], for a token without one it loads nothing and
    [user.id] raises [AttributeError]. The store is left as it was. *)
Theorem contact_routes_stop_at_the_lookup :
  forall decode_access_token (db : Db) (contact_id : Z)
         (contact : ContactCreate.t) (token : string),
    read_contact decode_access_token db contact_id token
    = Unhandled (match decode_access_token token with
                 | Some _ => DBAPIError
                 | None => AttributeError
                 end)
    /\ update_contact decode_access_token db contact_id contact token
       = (Unhandled (match decode_access_token token with
                     | Some _ => DBAPIError
                     | None => AttributeError
                     end), db)
    /\ delete_contact decode_access_token db contact_id token
       = (Unhandled (match decode_access_token token with
                     | Some _ => DBAPIError
                     | None => AttributeError
                     end), db)
    /\ create_contact decode_access_token db contact token
       = (Unhandled (match decode_access_token token with
                     | Some _ => DBAPIError
                     | None => AttributeError
                     end), db)
    /\ read_contacts decode_access_token db token
       = Unhandled (match decode_access_token token with
                    | Some _ => DBAPIError
                    | None => AttributeError
                    end).
Proof.
  intros dec db cid contact token.
  unfold read_contact, update_contact, delete_contact, create_contact,
    read_contacts, caller_of.
  destruct (dec token) as [s|]; simpl; auto 10.
Qed.

(** A delete on behalf of one user keeps every row of the others. *)
Lemma delete_contact_for_keeps_foreign_rows :
  forall (user : User.t) (db db' : Db) (contact_id : Z) (r : Response unit)
         (b : Contact.t),
    NoDup (map Contact.id (contacts db)) ->
    delete_contact_for user db contact_id = (r, db') ->
    In b (contacts db) -> Contact.user_id b <> User.id user ->
    In b (contacts db').
Proof.
  intros user db db' cid r b Hnd. unfold delete_contact_for.
  destruct (select_Contact db cid (User.id user)) as [e|[c|]] eqn:E;
    intros H Hb Hne; injection H as <- <-; try exact Hb.
  apply select_Contact_sound in E as (Hc & _ & Hu).
  simpl. apply filter_In. split; [exact Hb|].
  apply negb_true_iff, Z.eqb_neq. intros Eid. apply Hne.
  now rewrite (key_identifies_row Contact.id (contacts db) b c Hnd Hb Hc Eid).
Qed.

(** ** Partial update *)

(** The [setattr] loop, field by field: a blank string or [None] keeps the
    stored value, anything else replaces it; the keys are not among the
    request's fields and stay. *)
Lemma merge_into_fields (e : Contact.t) (r : ContactCreate.t) :
  merge_into e r =
  Contact.mk
    (Contact.id e) (Contact.user_id e)
    (if (ContactCreate.first_name r =? "")%string
     then Contact.first_name e else ContactCreate.first_name r)
    (if (ContactCreate.last_name r =? "")%string
     then Contact.last_name e else ContactCreate.last_name r)
    (if (ContactCreate.email r =? "")%string
     then Contact.email e else ContactCreate.email r)
    (if (ContactCreate.phone_number r =? "")%string
     then Contact.phone_number e else ContactCreate.phone_number r)
    (ContactCreate.birthday r)
    (match ContactCreate.additional_info r with
     | Some s => if (s =? "")%string then Contact.additional_info e else Some s
     | None => Contact.additional_info e
     end).
Proof.
  destruct e as [i o fn ln em ph bd ai].
  destruct r as [[|a1 s1] [|a2 s2] [|a3 s3] [|a4 s4] bd' [[|a5 s5]|]];
    reflexivity.
Qed.


(** What [PUT /contacts/{contact_id}] answers for an existing contact of the
    caller: the stored row in which exactly the fields with a truthy request
    value are replaced. *)
Lemma update_response_is_the_merge :
  forall (user : User.t) (db : Db) (contact_id : Z)
         (existing : Contact.t) (contact : ContactCreate.t),
    select_Contact db contact_id (User.id user) = inr (Some existing) ->
    exists updated,
      update_contact_for user db contact_id contact = (Ok 200 updated, db)
      /\ Contact.id updated = Contact.id existing
      /\ Contact.user_id updated = Contact.user_id existing
      /\ Contact.first_name updated
         = (if (ContactCreate.first_name contact =? "")%string
            then Contact.first_name existing
            else ContactCreate.first_name contact)
      /\ Contact.last_name updated
         = (if (ContactCreate.last_name contact =? "")%string
            then Contact.last_name existing
            else ContactCreate.last_name contact)
      /\ Contact.email updated
         = (if (ContactCreate.email contact =? "")%string
            then Contact.email existing
            else ContactCreate.email contact)
      /\ Contact.phone_number updated
         = (if (ContactCreate.phone_number contact =? "")%string
            then Contact.phone_number existing
            else ContactCreate.phone_number contact)
      /\ Contact.birthday updated = ContactCreate.birthday contact
      /\ Contact.additional_info updated
         = match ContactCreate.additional_info contact with
           | Some s => if (s =? "")%string
                       then Contact.additional_info existing else Some s
           | None => Contact.additional_info existing
           end.
Proof.
  intros user db cid existing contact Hsel.
  exists (merge_into existing contact). unfold update_contact_for.
  rewrite Hsel, merge_into_fields. simpl. repeat (split; [reflexivity|]).
  reflexivity.
Qed.

(** C6, on the code. The merge reaches the response only: [db.commit()] is
    called without [await], so whatever the request, the store after
    [PUT /contacts/{contact_id}] is the store before it and a read that
    follows returns what a read before returned. In the sample store the
    update of jane with a new last name, email, phone, birthday and note is
    answered 200 with the merged row, and the stored row is still jane. *)
Theorem update_is_not_committed :
  forall (user : User.t) (db : Db) (contact_id : Z) (contact : ContactCreate.t),
    snd (update_contact_for user db contact_id contact) = db
    /\ read_contact_for user
         (snd (update_contact_for user db contact_id contact)) contact_id
       = read_contact_for user db contact_id
    /\ update_contact_for Sample.alice Sample.db 1 Sample.blank_first_name
       = (Ok 200 (Contact.mk 1 1 "Jane" "Dee" "jd@x.com" "555-0111"
                             (mkdate 1991 2 2) (Some "renamed")),
          Sample.db)
    /\ read_contact_for Sample.alice
         (snd (update_contact_for Sample.alice Sample.db 1
                 Sample.blank_first_name)) 1
       = Ok 200 Sample.jane.
Proof.
  intros user db cid contact.
  assert (H : snd (update_contact_for user db cid contact) = db).
  { unfold update_contact_for.
    now destruct (select_Contact db cid (User.id user)) as [e|[c|]]. }
  split; [exact H|]. split; [now rewrite H|].
  split; reflexivity.
Qed.

(** A body that carries nothing but a first name does not pass validation,
    so no handler runs on it. *)
Example body_with_first_name_only_is_rejected :
  parse_ContactCreate
    (ContactBody.mk (Some "New") None None None None None None) = None.
Proof. reflexivity. Qed.

(** ** Creation *)




(** ** The gateway in front of [GET /users/me/] *)

Lemma truthy_subject (e : string) :
  e <> "" -> truthy (key_of_subject (Some e)) = true.
Proof.
  intros H. simpl. now destruct (String.eqb_spec e "").
Qed.

(** X10. [GET /users/me/] never returns a user: a token that decodes to a
    non-empty subject ends at [db.get], which raises; any other token is
    answered 401 "Could not validate credentials". *)
Theorem read_users_me_never_returns_a_user :
  forall decode_access_token (db : Db) (token : string),
    read_users_me decode_access_token db token
    = if truthy (key_of_subject (decode_access_token token))
      then Unhandled DBAPIError
      else HTTPException 401 "Could not validate credentials".
Proof.
  intros dec db token. unfold read_users_me.
  destruct (dec token) as [s|]; simpl; [|reflexivity].
  now destruct (s =? "")%string.
Qed.

(** C3, as the handler has it. A token that does not decode to a subject is
    answered 401 "Could not validate credentials". A token whose subject
    belongs to no stored user is not: its answer is neither that response nor
    any other 401, so the two causes reach the caller as different
    outcomes. *)
Theorem read_users_me_failure_outcomes :
  forall decode_access_token (db : Db) (token : string),
    (truthy (key_of_subject (decode_access_token token)) = false ->
     read_users_me decode_access_token db token
     = HTTPException 401 "Could not validate credentials")
    /\ (forall e, decode_access_token token = Some e -> e <> "" ->
          (forall u, In u (users db) -> User.email u <> e) ->
          status_of (read_users_me decode_access_token db token) <> 401
          /\ read_users_me decode_access_token db token
             <> HTTPException 401 "Could not validate credentials").
Proof.
  intros dec db token. unfold read_users_me. split.
  - intros H. now rewrite H.
  - intros e He Hne _. rewrite He, (truthy_subject e Hne). simpl.
    split; discriminate.
Qed.

Lemma read_users_me_failure_outcomes_witness :
  read_users_me Sample.decoder Sample.db "no such token"
    = HTTPException 401 "Could not validate credentials"
  /\ status_of (read_users_me Sample.decoder Sample.db "ghost-token") <> 401.
Proof.
  split.
  - apply (proj1 (read_users_me_failure_outcomes Sample.decoder Sample.db
                    "no such token")).
    reflexivity.
  - apply (proj2 (read_users_me_failure_outcomes Sample.decoder Sample.db
                    "ghost-token") "ghost@example.com").
    + reflexivity.
    + discriminate.
    + simpl. intros u [<-|[<-|[]]]; discriminate.
Defined.

(** The subject of "ghost-token" is the email of no stored user, and the
    answer is not the 401 given to a token that does not decode: the lookup
    raises and the caller gets a 500. *)
Lemma unknown_subject_is_not_unauthenticated :
  Sample.decoder "ghost-token" = Some "ghost@example.com"
  /\ (forall u, In u (users Sample.db) -> User.email u <> "ghost@example.com")
  /\ read_users_me Sample.decoder Sample.db "ghost-token"
     = Unhandled DBAPIError
  /\ read_users_me Sample.decoder Sample.db "no such token"
     = HTTPException 401 "Could not validate credentials"
  /\ status_of (read_users_me Sample.decoder Sample.db "ghost-token") <> 401.
Proof.
  split; [reflexivity|]. split.
  - simpl. intros u [<-|[<-|[]]]; discriminate.
  - split; [reflexivity|]. split; [reflexivity|]. discriminate.
Qed.

(** ** Login *)

(** C4, on the code. [POST /token] looks the user up with [db.get] keyed by
    the username, which raises before the password is looked at: a login with
    an unknown email and a login with a stored email and a wrong password do
    get the same answer, but it is a 500, not the 401 "Incorrect email or
    password"; so does the login with the right password. *)
Theorem login_fails_before_the_password_check :
  forall verify_password create_access_token create_refresh_token
         (db : Db) (username password : string),
    login_for_access_token verify_password create_access_token
      create_refresh_token db username password
    = Unhandled DBAPIError
    /\ status_of (login_for_access_token verify_password create_access_token
                    create_refresh_token db username password) = 500
    /\ login_for_access_token Sample.check Sample.mint Sample.mint Sample.db
         "user@example.com" "wrongpassword"
       = login_for_access_token Sample.check Sample.mint Sample.mint Sample.db
           "alice@example.com" "wrongpassword"
    /\ login_for_access_token Sample.check Sample.mint Sample.mint Sample.db
         "alice@example.com" "wrongpassword"
       <> HTTPException 401 "Incorrect email or password".
Proof.
  intros verify cat crt db username password.
  repeat (split; [reflexivity|]). discriminate.
Qed.

(** ** Registration *)

Lemma existsb_email_fresh (l : list User.t) (email : string) :
  (forall v, In v l -> User.email v <> email) ->
  existsb (fun u => (User.email u =? email)%string) l = false.
Proof.
  intros H. destruct (existsb _ l) eqn:E; [|reflexivity].
  apply existsb_exists in E as (v & Hv & Heq).
  apply String.eqb_eq in Heq. now apply H in Hv.
Qed.

Lemma select_User_by_email_fresh (db : Db) (email : string) :
  (forall v, In v (users db) -> User.email v <> email) ->
  select_User_by_email db email = None.
Proof.
  intros H. unfold select_User_by_email. apply find_none_of_false.
  intros v Hv. apply String.eqb_neq. now apply H.
Qed.

Lemma register_raises_at_the_lookup (get_password_hash : string -> string)
    (db : Db) (user : UserCreate.t) :
  register get_password_hash db user = (Unhandled DBAPIError, db).
Proof. reflexivity. Qed.

(** C5, on the code. Registering "user@example.com" twice, starting from an
    empty store: the duplicate check [db.get(User, user.email)] raises on
    both calls, so the first is not answered 201, the second is not answered
    409, both get a 500 and no user is stored. *)
Theorem register_twice_is_not_a_conflict :
  forall get_password_hash,
    register get_password_hash empty_db Sample.new_user
      = (Unhandled DBAPIError, empty_db)
    /\ register get_password_hash
         (snd (register get_password_hash empty_db Sample.new_user))
         Sample.new_user
       = (Unhandled DBAPIError, empty_db)
    /\ status_of (fst (register get_password_hash empty_db Sample.new_user))
       = 500
    /\ users (snd (register get_password_hash empty_db Sample.new_user)) = [].
Proof.
  intros hash. repeat (split; [reflexivity|]). reflexivity.
Qed.

(** X1. For an email no stored user has, [POST /users/] stores the new user,
    active, under the next id, but answers 500: the row is returned without
    a refresh. The same request sent again is answered 409 and leaves the
    store as it is. *)
Theorem create_user_twice_is_a_conflict :
  forall get_password_hash (db : Db) (user : UserCreate.t),
    (forall v, In v (users db) -> User.email v <> UserCreate.email user) ->
    exists e db',
      create_user get_password_hash db user = (Unhandled e, db')
      /\ users db'
         = (users db
            ++ [User.mk (users_id_seq db) (UserCreate.email user)
                  (get_password_hash (UserCreate.password user)) true])%list
      /\ contacts db' = contacts db
      /\ create_user get_password_hash db' user
         = (HTTPException 409 "Email already registered", db').
Proof.
  intros hash db user Hfresh.
  eexists _, _. split; [|split; [|split]].
  - unfold create_user, insert_User.
    rewrite (select_User_by_email_fresh _ _ Hfresh),
            (existsb_email_fresh _ _ Hfresh).
    reflexivity.
  - reflexivity.
  - reflexivity.
  - unfold create_user, select_User_by_email. simpl.
    rewrite find_app_none.
    + simpl. now rewrite String.eqb_refl.
    + apply find_none_of_false.
      intros v Hv. apply String.eqb_neq. now apply Hfresh.
Qed.

Lemma create_user_twice_is_a_conflict_witness :
  exists e db',
    create_user Sample.hash Sample.db Sample.new_user = (Unhandled e, db')
    /\ users db'
       = [Sample.alice; Sample.bob;
          User.mk 3 "user@example.com" "h:password" true]
    /\ contacts db' = contacts Sample.db
    /\ create_user Sample.hash db' Sample.new_user
       = (HTTPException 409 "Email already registered", db').
Proof.
  apply (create_user_twice_is_a_conflict Sample.hash Sample.db Sample.new_user).
  simpl. intros v [<-|[<-|[]]]; discriminate.
Defined.

(** C10, on the code. [POST /register/] stores nobody: the lookup raises
    before the row with [is_active=False] is built, whatever the request and
    the store. [POST /users/] with the same request does store the user with
    [is_active=True] unless the email is taken. *)
Theorem register_stores_nobody_create_user_stores_active :
  forall get_password_hash (db : Db) (user : UserCreate.t),
    register get_password_hash db user = (Unhandled DBAPIError, db)
    /\ users (snd (register get_password_hash db user)) = users db
    /\ users (snd (create_user get_password_hash db user))
       = if existsb (fun u => (User.email u =? UserCreate.email user)%string)
                    (users db)
         then users db
         else (users db
               ++ [User.mk (users_id_seq db) (UserCreate.email user)
                     (get_password_hash (UserCreate.password user)) true])%list.
Proof.
  intros hash db user. split; [reflexivity|]. split; [reflexivity|].
  unfold create_user, select_User_by_email, insert_User.
  destruct (find _ (users db)) as [v|] eqn:E.
  - apply find_some in E as [Hv Heq].
    assert (T : existsb (fun u => (User.email u =? UserCreate.email user)%string)
                        (users db) = true).
    { apply existsb_exists. now exists v. }
    now rewrite T.
  - assert (F : existsb (fun u => (User.email u =? UserCreate.email user)%string)
                        (users db) = false).
    { destruct (existsb _ (users db)) eqn:T; [|reflexivity].
      apply existsb_exists in T as (v & Hv & Heq).
      apply (find_none _ _ E) in Hv. congruence. }
    now rewrite F.
Qed.

(** ** Email verification *)

(** C9, on the code. [verify_email] activates nobody: as written it raises
    [NameError] on [decode_token]; and with any decoder bound to that name
    the user is looked up by [db.get] keyed by the decoded email, which
    raises for a subject and loads nothing without one. In no case is the
    store changed or a 200 returned. *)
Theorem verify_email_activates_nobody :
  forall decode_access_token decode_token (db : Db) (token : string),
    verify_email decode_access_token db token = (Unhandled NameError, db)
    /\ verify_email_with decode_token db token
       = (match decode_token token with
          | Some _ => Unhandled DBAPIError
          | None => HTTPException 404 "User not found"
          end, db).
Proof.
  intros dec dt db token. split; [reflexivity|].
  unfold verify_email_with. now destruct (dt token).
Qed.

(** Alice is stored and inactive, her token decodes to her email, and she is
    still inactive afterwards. *)
Example verify_email_for_alice :
  verify_email Sample.decoder Sample.db "alice-token"
  = (Unhandled NameError, Sample.db)
  /\ verify_email_with Sample.decoder Sample.db "alice-token"
     = (Unhandled DBAPIError, Sample.db)
  /\ In Sample.alice (users Sample.db)
  /\ User.is_active Sample.alice = false.
Proof. simpl. auto. Qed.

(** What the activation does to a loaded row. *)
Lemma activate_User_sets_flag (db : Db) (u : User.t) :
  In u (users db) ->
  In (User.mk (User.id u) (User.email u) (User.hashed_password u) true)
     (users (activate_User db u)).
Proof.
  intros H. unfold activate_User. simpl.
  apply in_map_iff. exists u. now rewrite Z.eqb_refl.
Qed.

(** ** Token round trip *)

Lemma decode_signed (SECRET_KEY : string) (sign : string -> Claims -> string)
    (claims : Claims) (now : Z) :
  decode SECRET_KEY sign (Signed claims (sign SECRET_KEY claims)) now
  = if now <? exp claims then Subject (sub claims) else Invalid.
Proof.
  simpl. now rewrite String.eqb_refl.
Qed.

(** A token that does not parse, or whose signature is not the one the
    secret gives, is [Invalid] at any time. *)
Lemma decode_rejects_forgery (SECRET_KEY : string)
    (sign : string -> Claims -> string) (token : Token) (now : Z) :
  match token with
  | Malformed _ => True
  | Signed claims signature => signature <> sign SECRET_KEY claims
  end ->
  decode SECRET_KEY sign token now = Invalid.
Proof.
  destruct token as [raw|claims signature]; simpl; [reflexivity|].
  intros H. apply String.eqb_neq in H. now rewrite H.
Qed.

(** C2. The token issued for a subject and a kind at [t0] decodes to that
    subject at every time before [t0 + TTL kind], and to [Invalid] at every
    time from [t0 + TTL kind] on. *)
Theorem decode_issue_until_expiry :
  forall (SECRET_KEY : string) (sign : string -> Claims -> string)
         (TTL : TokenKind -> Z) (subject : string) (k : TokenKind) (t0 t : Z),
    (t < t0 + TTL k ->
     decode SECRET_KEY sign (issue SECRET_KEY sign TTL subject k t0) t
     = Subject subject)
    /\ (t0 + TTL k <= t ->
        decode SECRET_KEY sign (issue SECRET_KEY sign TTL subject k t0) t
        = Invalid).
Proof.
  intros key sign TTL subject k t0 t. unfold issue.
  rewrite decode_signed. simpl. split; intros H.
  - apply Z.ltb_lt in H. now rewrite H.
  - apply Z.ltb_ge in H. now rewrite H.
Qed.

Lemma decode_issue_until_expiry_witness :
  decode "k" Sample.sign
    (issue "k" Sample.sign Sample.TTL "alice@example.com" Access 1000) 2799
  = Subject "alice@example.com"
  /\ decode "k" Sample.sign
       (issue "k" Sample.sign Sample.TTL "alice@example.com" Access 1000) 2800
     = Invalid.
Proof.
  split.
  - apply (proj1 (decode_issue_until_expiry "k" Sample.sign Sample.TTL
                    "alice@example.com" Access 1000 2799)).
    simpl. lia.
  - apply (proj2 (decode_issue_until_expiry "k" Sample.sign Sample.TTL
                    "alice@example.com" Access 1000 2800)).
    simpl. lia.
Defined.


(** ** Reachable stores *)

Lemma NoDup_map_snoc {A} (key : A -> Z) (l : list A) (x : A) :
  NoDup (map key l) -> (forall y, In y l -> key y <> key x) ->
  NoDup (map key (l ++ [x])).
Proof.
  induction l as [|a l IH]; simpl; intros Hnd Hx.
  - constructor; [easy|constructor].
  - inversion Hnd as [|? ? Hni Hnd']; subst. constructor.
    + rewrite map_app, in_app_iff. simpl. intros [H|[H|[]]].
      * now apply Hni.
      * apply (Hx a (or_introl eq_refl)). now symmetry.
    + apply IH; auto.
Qed.

Lemma NoDup_map_filter {A} (key : A -> Z) (p : A -> bool) (l : list A) :
  NoDup (map key l) -> NoDup (map key (filter p l)).
Proof.
  induction l as [|a l IH]; simpl; intros Hnd; [constructor|].
  inversion Hnd as [|? ? Hni Hnd']; subst.
  destruct (p a); simpl; [constructor|]; auto.
  intros H. apply Hni. apply in_map_iff in H as (y & Hy & Hin).
  apply in_map_iff. exists y. split; [exact Hy|].
  now apply filter_In in Hin.
Qed.

Lemma wf_empty_db : wf_db empty_db.
Proof.
  unfold wf_db. simpl. repeat split; try constructor; intros ? [].
Qed.

Lemma insert_User_wf (db db' : Db) (email hashed : string) (active : bool) :
  wf_db db ->
  match insert_User db email hashed active with
  | inl (_, db') => wf_db db'
  | inr (_, db') => wf_db db'
  end.
Proof.
  intros (Hu & Hc & Hus & Hcs). unfold insert_User.
  destruct (existsb _ (users db)); unfold wf_db; simpl.
  - split; [exact Hu|split; [exact Hc|split; [|exact Hcs]]].
    intros v Hv. specialize (Hus v Hv). lia.
  - split; [|split; [exact Hc|split; [|exact Hcs]]].
    + apply NoDup_map_snoc; [exact Hu|].
      intros y Hy. simpl. specialize (Hus y Hy). lia.
    + intros v Hv. apply in_app_or in Hv as [Hv|[<-|[]]].
      * specialize (Hus v Hv). lia.
      * simpl. lia.
Qed.

Lemma insert_Contact_wf (db : Db) (f : ContactCreate.t) (owner : Z) :
  wf_db db ->
  match insert_Contact db f owner with
  | inl (_, db') => wf_db db'
  | inr (_, db') => wf_db db'
  end.
Proof.
  intros (Hu & Hc & Hus & Hcs). unfold insert_Contact.
  destruct (negb _ || _); unfold wf_db; simpl.
  - split; [exact Hu|split; [exact Hc|split; [exact Hus|]]].
    intros v Hv. specialize (Hcs v Hv). lia.
  - split; [exact Hu|split; [|split; [exact Hus|]]].
    + apply NoDup_map_snoc; [exact Hc|].
      intros y Hy. simpl. specialize (Hcs y Hy). lia.
    + intros v Hv. apply in_app_or in Hv as [Hv|[<-|[]]].
      * specialize (Hcs v Hv). lia.
      * simpl. lia.
Qed.

Lemma delete_Contact_wf (db : Db) (c : Contact.t) :
  wf_db db -> wf_db (delete_Contact db c).
Proof.
  intros (Hu & Hc & Hus & Hcs). unfold wf_db, delete_Contact. simpl.
  split; [exact Hu|split; [|split; [exact Hus|]]].
  - now apply NoDup_map_filter.
  - intros v Hv. apply filter_In in Hv as [Hv _]. now apply Hcs.
Qed.

(** X13. Every handler that writes takes a well-formed store to a well-formed
    store, so the stores reached from [empty_db] have unique contact ids. *)
Lemma handlers_preserve_wf :
  forall get_password_hash (db : Db),
    wf_db db ->
    (forall user, wf_db (snd (register get_password_hash db user)))
    /\ (forall user, wf_db (snd (create_user get_password_hash db user)))
    /\ (forall user contact, wf_db (snd (create_contact_for user db contact)))
    /\ (forall user contact_id contact,
          wf_db (snd (update_contact_for user db contact_id contact)))
    /\ (forall user contact_id,
          wf_db (snd (delete_contact_for user db contact_id))).
Proof.
  intros hash db Hwf. repeat apply conj.
  - intros user. exact Hwf.
  - intros user. unfold create_user.
    destruct (select_User_by_email db _); [exact Hwf|].
    pose proof (insert_User_wf db db (UserCreate.email user)
                  (hash (UserCreate.password user)) true Hwf) as H.
    now destruct (insert_User db _ _ true) as [[e db']|[u db']].
  - intros user contact. unfold create_contact_for.
    pose proof (insert_Contact_wf db contact (User.id user) Hwf) as H.
    now destruct (insert_Contact db contact _) as [[e db']|[c db']].
  - intros user cid contact. unfold update_contact_for.
    now destruct (select_Contact db cid _) as [e|[c|]].
  - intros user cid. unfold delete_contact_for.
    destruct (select_Contact db cid _) as [e|[c|]]; try exact Hwf.
    simpl. now apply delete_Contact_wf.
Qed.

(** * Further properties of the handlers *)

Lemma wf_Sample_db : wf_db Sample.db.
Proof.
  unfold wf_db. simpl. repeat apply conj.
  - repeat constructor; simpl; intuition discriminate.
  - repeat constructor; simpl; intuition discriminate.
  - intros u [<-|[<-|[]]]; simpl; lia.
  - intros c [<-|[<-|[]]]; simpl; lia.
Qed.

Lemma handlers_preserve_wf_witness :
  wf_db (snd (register Sample.hash Sample.db Sample.new_user))
  /\ wf_db (snd (delete_contact_for Sample.alice Sample.db 1)).
Proof.
  destruct (handlers_preserve_wf Sample.hash Sample.db wf_Sample_db)
    as (H1 & _ & _ & _ & H5).
  split; [apply H1 | apply H5].
Defined.

(** ** Listing *)

(** X2. [GET /contacts/] answers 200 with the rows of the table whose [user_id]
    is the caller's id, all of them and nothing else. *)
Theorem read_contacts_lists_exactly_own :
  forall (user : User.t) (db : Db),
    exists l,
      read_contacts_for user db = Ok 200 l
      /\ (forall c, In c l <->
                    In c (contacts db) /\ Contact.user_id c = User.id user)
      /\ (forall other, User.id other <> User.id user ->
            forall c l', read_contacts_for other db = Ok 200 l' ->
                         In c l -> ~ In c l').
Proof.
  intros user db. exists (select_Contacts_of db (User.id user)).
  split; [reflexivity|]. split.
  - intros c. unfold select_Contacts_of. rewrite filter_In, Z.eqb_eq. tauto.
  - intros other Hne c l' H Hc Hc'. unfold read_contacts_for in H.
    injection H as <-. unfold select_Contacts_of in Hc, Hc'.
    apply filter_In in Hc as [_ Hc], Hc' as [_ Hc'].
    apply Z.eqb_eq in Hc, Hc'. apply Hne. congruence.
Qed.


(** ** Create, then read *)






(** ** Delete, then read *)




(** ** The merge of [update_contact] *)

(** X6. Sending the same update twice gives what sending it once gives. *)
Theorem merge_into_idempotent :
  forall (e : Contact.t) (r : ContactCreate.t),
    merge_into (merge_into e r) r = merge_into e r.
Proof.
  intros e r. rewrite !merge_into_fields.
  destruct e as [i o fn ln em ph bd ai].
  destruct r as [[|a1 s1] [|a2 s2] [|a3 s3] [|a4 s4] bd' [[|a5 s5]|]];
    reflexivity.
Qed.

(** X7. Sending a contact's own fields back changes nothing. *)
Theorem merge_into_own_fields :
  forall (e : Contact.t),
    merge_into e
      (ContactCreate.mk (Contact.first_name e) (Contact.last_name e)
         (Contact.email e) (Contact.phone_number e) (Contact.birthday e)
         (Contact.additional_info e))
    = e.
Proof.
  intros e. rewrite merge_into_fields.
  destruct e as [i o [|a1 s1] [|a2 s2] [|a3 s3] [|a4 s4] bd [[|a5 s5]|]];
    reflexivity.
Qed.

(** X8. No update can blank a field: a field of the result is empty only if it
    was empty in the stored row and in the request, and a stored
    [additional_info] is never reset to [None]. *)
Theorem merge_into_cannot_clear :
  forall (e : Contact.t) (r : ContactCreate.t),
    (Contact.first_name (merge_into e r) = "" ->
     Contact.first_name e = "" /\ ContactCreate.first_name r = "")
    /\ (Contact.last_name (merge_into e r) = "" ->
        Contact.last_name e = "" /\ ContactCreate.last_name r = "")
    /\ (Contact.email (merge_into e r) = "" ->
        Contact.email e = "" /\ ContactCreate.email r = "")
    /\ (Contact.phone_number (merge_into e r) = "" ->
        Contact.phone_number e = "" /\ ContactCreate.phone_number r = "")
    /\ (Contact.additional_info (merge_into e r) = None ->
        Contact.additional_info e = None).
Proof.
  intros e r. rewrite merge_into_fields.
  destruct e as [i o fn ln em ph bd ai].
  destruct r as [[|a1 s1] [|a2 s2] [|a3 s3] [|a4 s4] bd' [[|a5 s5]|]];
    simpl; (split; [|split; [|split; [|split]]]); intros H;
    first [discriminate H | auto].
Qed.

Lemma merge_into_cannot_clear_witness :
  Contact.additional_info Sample.jane = None
  /\ (Contact.first_name
        (Contact.mk 3 1 "" "Poe" "poe@x.com" "555-0123" (mkdate 1970 1 1) None)
      = ""
      /\ ContactCreate.first_name Sample.blank_first_name = "").
Proof.
  split.
  - apply (proj2 (proj2 (proj2 (proj2
             (merge_into_cannot_clear Sample.jane Sample.rename_only))))).
    reflexivity.
  - apply (proj1 (merge_into_cannot_clear
                    (Contact.mk 3 1 "" "Poe" "poe@x.com" "555-0123"
                                (mkdate 1970 1 1) None)
                    Sample.blank_first_name)).
    reflexivity.
Defined.

(** ** Validation of a contact body *)

(** A body passes as a [ContactCreate] exactly when it carries the five
    required fields; they arrive unchanged, [additional_info] is handed on
    as it is (missing means [None]), and nothing else of the body is kept. *)
Theorem parse_ContactCreate_spec :
  forall (b : ContactBody.t) (c : ContactCreate.t),
    parse_ContactCreate b = Some c <->
    ContactBody.first_name b = Some (ContactCreate.first_name c)
    /\ ContactBody.last_name b = Some (ContactCreate.last_name c)
    /\ ContactBody.email b = Some (ContactCreate.email c)
    /\ ContactBody.phone_number b = Some (ContactCreate.phone_number c)
    /\ ContactBody.birthday b = Some (ContactCreate.birthday c)
    /\ ContactBody.additional_info b = ContactCreate.additional_info c.
Proof.
  intros [fn ln em ph bd ai owner] [fn' ln' em' ph' bd' ai'].
  unfold parse_ContactCreate. simpl. split.
  - destruct fn, ln, em, ph, bd; try discriminate.
    intros H. injection H as -> -> -> -> -> ->. auto 10.
  - intros (-> & -> & -> & -> & -> & ->). reflexivity.
Qed.

(** ** Unique emails *)

Lemma NoDup_snoc {A} (l : list A) (x : A) :
  NoDup l -> ~ In x l -> NoDup (l ++ [x]).
Proof.
  induction l as [|a l IH]; simpl; intros Hnd Hx.
  - constructor; [easy|constructor].
  - inversion Hnd as [|? ? Hni Hnd']; subst. constructor.
    + rewrite in_app_iff. simpl. intros [H|[H|[]]]; [now apply Hni|].
      apply Hx. now left.
    + apply IH; [exact Hnd'|]. intros H. apply Hx. now right.
Qed.

Lemma delete_keeps_column_distinct {B} (column : Contact.t -> B) (c : Contact.t)
    (db : Db) :
  NoDup (map column (contacts db)) ->
  NoDup (map column (contacts (delete_Contact db c))).
Proof.
  unfold delete_Contact. simpl.
  induction (contacts db) as [|row rows IH]; simpl; intros Hnd; [exact Hnd|].
  apply NoDup_cons_iff in Hnd as [Hfresh Hrest].
  destruct (Contact.id row =? Contact.id c); simpl; [now apply IH|].
  apply NoDup_cons; [|now apply IH].
  intros Hin. apply Hfresh.
  apply in_map_iff in Hin as (other & <- & Hother).
  apply in_map. now apply filter_In in Hother.
Qed.

Lemma existsb_false_not_in_map {A} (f : A -> string) (l : list A) (s : string) :
  existsb (fun x => (f x =? s)%string) l = false -> ~ In s (map f l).
Proof.
  intros E H. apply in_map_iff in H as (x & Hx & Hin).
  assert (T : existsb (fun x => (f x =? s)%string) l = true).
  { apply existsb_exists. exists x. split; [exact Hin|].
    now apply String.eqb_eq. }
  congruence.
Qed.

(** X14. No two users and no two contacts ever share an email: every handler that
    writes takes a store with distinct emails to a store with distinct
    emails. *)
Theorem handlers_keep_emails_unique :
  forall get_password_hash (db : Db),
    emails_unique db ->
    (forall user, emails_unique (snd (register get_password_hash db user)))
    /\ (forall user, emails_unique (snd (create_user get_password_hash db user)))
    /\ (forall user contact,
          emails_unique (snd (create_contact_for user db contact)))
    /\ (forall user contact_id contact,
          emails_unique (snd (update_contact_for user db contact_id contact)))
    /\ (forall user contact_id,
          emails_unique (snd (delete_contact_for user db contact_id))).
Proof.
  intros hash db [Hu Hc].
  assert (Hbump : forall us cs, emails_unique (mkDb (users db) (contacts db) us cs))
    by (intros; now split).
  repeat apply conj.
  - intros user. now split.
  - intros user. unfold create_user, insert_User.
    destruct (select_User_by_email db _); [now split|].
    destruct (existsb _ (users db)) eqn:E; simpl; [apply Hbump|].
    split; [|exact Hc]. simpl. rewrite map_app. simpl.
    apply NoDup_snoc; [exact Hu|].
    now apply existsb_false_not_in_map.
  - intros user contact. unfold create_contact_for, insert_Contact.
    destruct (negb _) eqn:Efk; simpl; [apply Hbump|].
    destruct (existsb _ (contacts db)) eqn:E; simpl; [apply Hbump|].
    split; [exact Hu|]. simpl. rewrite map_app. simpl.
    apply NoDup_snoc; [exact Hc|].
    now apply existsb_false_not_in_map.
  - intros user cid contact. unfold update_contact_for.
    destruct (select_Contact db cid _) as [e|[c|]]; now split.
  - intros user cid. unfold delete_contact_for.
    destruct (select_Contact db cid _) as [e|[c|]]; try now split.
    split; [exact Hu|]. now apply delete_keeps_column_distinct.
Qed.

Lemma emails_unique_Sample_db : emails_unique Sample.db.
Proof.
  split; simpl; repeat constructor; simpl; intuition discriminate.
Qed.

Lemma handlers_keep_emails_unique_witness :
  emails_unique (snd (create_user Sample.hash Sample.db Sample.new_user))
  /\ emails_unique (snd (delete_contact_for Sample.alice Sample.db 1)).
Proof.
  destruct (handlers_keep_emails_unique Sample.hash Sample.db
              emails_unique_Sample_db) as (_ & H2 & _ & _ & H5).
  split; [apply H2 | apply H5].
Defined.
